(** * Arithmetic Sequence Generator: a shallow embedding of [app.py]

    The program is one Python function, [generate_arithmetic_sequence], and a
    Streamlit page ([main]) that validates the three inputs, calls the
    function and shows four metrics computed from the returned list.

    Python numbers are duck-typed: the function runs unchanged on [float]
    (what the docstring announces and what the page's widgets deliver) and on
    exact numbers.  The embedding follows that: the code is written once over
    an interface [Number] of the operators it uses, and instantiated at
    IEEE-754 binary64 ([float], Rocq's primitive floats) and at the
    rationals ([Q]), which stand for exact arithmetic.

    The parts of the page that depend on the sequence are modelled too: the
    summary line, the two layouts of the "View All Terms" expander and the
    statistics, each by the data its text is made of. *)

From Stdlib Require Import ZArith List Lia QArith Qfield Floats.
From stdpp Require Import base option list gmap.
Import ListNotations.

Close Scope Q_scope.
Local Open Scope Z_scope.

Set Warnings "-inexact-float".

(** ** Python values, exceptions and builtins *)

Module Py.

(** The exceptions the modelled statements can raise. *)
Inductive exn : Type :=
| IndexError          (* list index out of range *)
| ZeroDivisionError.  (* division by zero *)

(** What evaluating a Python expression or calling a function ends in. *)
Inductive outcome (A : Type) : Type :=
| Returned (a : A)
| Raised (e : exn).
Arguments Returned {A} a.
Arguments Raised {A} e.

#[global] Instance outcome_ret : MRet outcome := fun _ a => Returned a.
#[global] Instance outcome_bind : MBind outcome := fun _ _ k m =>
  match m with
  | Returned a => k a
  | Raised e => Raised e
  end.

(** [range(n)]: 0, 1, ..., n-1, and nothing at all when [n <= 0]. *)
Definition range (n : Z) : list Z := seqZ 0 n.

(** [len(l)] *)
Definition len {A} (l : list A) : Z := Z.of_nat (length l).

(** [l[i]]: a negative index counts from the end; an index outside
    [-len(l) .. len(l)-1] raises [IndexError]. *)
Definition getitem {A} (l : list A) (i : Z) : outcome A :=
  let j := if i <? 0 then i + len l else i in
  if (j <? 0) || (len l <=? j) then Raised IndexError
  else match l !! Z.to_nat j with
       | Some x => Returned x
       | None => Raised IndexError
       end.

(** The operators on numbers: [+], [*] and [/] are the ones the program
    applies, [-] is there to state properties.  [of_int] is the
    conversion Python inserts when an [int] meets a number of the other
    type ([i * common_difference], the start value [0] of [sum],
    [len(sequence) / 2]). *)
Class Number (A : Type) : Type := {
  of_int : Z -> A;
  add : A -> A -> A;
  sub : A -> A -> A;
  mul : A -> A -> A;
  is_zero : A -> bool;
  div : A -> A -> A
}.

(** [x / y] raises [ZeroDivisionError] on a zero divisor. *)
Definition truediv {A} `{Number A} (x y : A) : outcome A :=
  if is_zero y then Raised ZeroDivisionError else Returned (div x y).

(** [sum(l)]: the start value [0] and the items, added from left to
    right. *)
Definition sum {A} `{Number A} (l : list A) : A :=
  fold_left add l (of_int 0).

End Py.
Import Py.

(** ** The two number types *)

(** Exact arithmetic: the rationals. *)
#[global] Instance Q_Number : Number Q := {
  of_int := inject_Z;
  add := Qplus;
  sub := Qminus;
  mul := Qmult;
  is_zero := fun q => Qeq_bool q (inject_Z 0);
  div := Qdiv
}.

Module Float.

(** [float(z)] for a Python [int]: the nearest binary64 value, ties to
    even.  (Python raises [OverflowError] where this gives an infinity,
    from 2^1024 on; no index of a list gets there.) *)
Definition of_int (z : Z) : float :=
  SF2Prim (binary_normalize prec emax z 0 false).

Definition is_zero (x : float) : bool := PrimFloat.eqb x 0%float.

(** One step of the compensated summation that CPython (3.12 and later)
    runs inside [sum] once the running total is a [float]: [f] is the
    running total, [c] the accumulated correction. *)
Definition neumaier_step (st : float * float) (x : float) : float * float :=
  let '(f, c) := st in
  let t := (f + x)%float in
  let c' := if PrimFloat.leb (abs x) (abs f)
            then (c + ((f - t) + x))%float
            else (c + ((x - t) + f))%float in
  (t, c').

(** [sum(l)] on a list of floats as CPython 3.12 and later compute it: the
    first item is added to the [int] start value [0], the others go
    through [neumaier_step], and the correction is added at the end when
    it is finite and not zero. *)
Definition sum_compensated (l : list float) : float :=
  match l with
  | [] => of_int 0
  | x :: r =>
      let '(f, c) := fold_left neumaier_step r ((of_int 0 + x)%float, 0%float) in
      if negb (PrimFloat.eqb c 0%float) && PrimFloat.ltb (abs c) infinity
      then (f + c)%float else f
  end.

(** Agreement of two floats within a relative tolerance, as
    [math.isclose(a, b, rel_tol=rel_tol)] decides it (with its default
    [abs_tol=0.0]). *)
Definition isclose (rel_tol a b : float) : bool :=
  if PrimFloat.eqb a b then true
  else if PrimFloat.eqb (abs a) infinity || PrimFloat.eqb (abs b) infinity
  then false
  else
    let diff := abs (b - a) in
    PrimFloat.leb diff (abs (rel_tol * b))
    || PrimFloat.leb diff (abs (rel_tol * a))
    || PrimFloat.leb diff 0%float.

End Float.

#[global] Instance float_Number : Number float := {
  of_int := Float.of_int;
  add := PrimFloat.add;
  sub := PrimFloat.sub;
  mul := PrimFloat.mul;
  is_zero := Float.is_zero;
  div := PrimFloat.div
}.

(** ** The program *)

Section Program.

Context {A : Type} `{Number A}.

(** The body of the [for] loop: one [append] to the local list [sequence]. *)
Definition loop_body (first_term common_difference : A)
           (sequence : list A) (i : Z) : list A :=
  let term := add first_term (mul (of_int i) common_difference) in
  sequence ++ [term].

(** The value [term] takes in iteration [i]. *)
Definition term_at (first_term common_difference : A) (i : Z) : A :=
  add first_term (mul (of_int i) common_difference).

(** [generate_arithmetic_sequence(first_term, common_difference, num_terms)]
    (app.py, lines 3-19). *)
Definition generate_arithmetic_sequence
           (first_term common_difference : A) (num_terms : Z)
  : outcome (list A) :=
  let sequence := [] in
  let sequence :=
    fold_left (loop_body first_term common_difference) (range num_terms) sequence in
  Returned sequence.

(** The four metrics of the "Sequence Statistics" row. *)
Record statistics_row : Type := {
  first : A;            (* "First Term": sequence[0] *)
  last : A;             (* "Last Term": sequence[-1] *)
  sum_direct : A;       (* "Sum of Terms": sum(sequence) *)
  sum_formula : A       (* "Sum (Formula)": arithmetic_sum *)
}.

(** The statistics block of [main] (app.py, lines 124-136), before the
    values are formatted with [:g]. *)
Definition statistics (sequence : list A) : outcome statistics_row :=
  first_metric ← getitem sequence 0;
  last_metric ← getitem sequence (-1);
  let sum_metric := sum sequence in
  half ← truediv (of_int (len sequence)) (of_int 2);
  s0 ← getitem sequence 0;
  s1 ← getitem sequence (-1);
  let arithmetic_sum := mul half (add s0 s1) in
  mret {| first := first_metric; last := last_metric;
          sum_direct := sum_metric; sum_formula := arithmetic_sum |}.

(** What the page ends up showing. *)
Inductive page : Type :=
| NotPositive                                   (* st.error, line 67 *)
| TooManyTerms                                  (* st.warning, line 71 *)
| Rendered (sequence : list A) (row : statistics_row)
| ErrorOccurred (e : exn).                      (* except Exception, line 151 *)

(** [main] (app.py, lines 21-153), with the three widget values as
    arguments and the page reduced to what it computes. *)
Definition main (first_term common_difference : A) (num_terms : Z) : page :=
  if num_terms <=? 0 then NotPositive
  else if 1000 <? num_terms then TooManyTerms
  else
    match
      sequence ← generate_arithmetic_sequence first_term common_difference num_terms;
      row ← statistics sequence;
      mret (sequence, row)
    with
    | Returned (sequence, row) => Rendered sequence row
    | Raised e => ErrorOccurred e
    end.

End Program.

Arguments statistics_row A : clear implicits.
Arguments page A : clear implicits.

(** ** The function on list objects

    [generate_arithmetic_sequence] builds its result in a list object that
    it creates itself ([sequence = []]) and grows with [append].  Here the
    list objects of the interpreter are explicit: a heap maps the identity
    of each list to its current items, and the function is a computation
    that reads and writes that heap. *)

Module Obj.
Section Heap.

Context {A : Type} `{Number A}.

Local Abbreviation heap := (gmap positive (list A)).

(** A statement: from a heap to a result and the heap it leaves. *)
Definition M (X : Type) : Type := heap -> X * heap.

#[global] Instance M_ret : MRet M := fun _ x h => (x, h).
#[global] Instance M_bind : MBind M := fun _ _ k m h =>
  let '(x, h') := m h in k x h'.

(** [[]]: a new list object, distinct from every object of the heap. *)
Definition new_list : M positive := fun h =>
  let l := fresh (dom h) in (l, <[l := []]> h).

(** [l.append(x)] *)
Definition append (l : positive) (x : A) : M unit := fun h =>
  (tt, alter (fun items => items ++ [x]) l h).

(** [for i in indices: body(i)] *)
Fixpoint for_in (indices : list Z) (body : Z -> M unit) : M unit :=
  match indices with
  | [] => mret tt
  | i :: rest => _ ← body i; for_in rest body
  end.

Definition generate_arithmetic_sequence
           (first_term common_difference : A) (num_terms : Z) : M positive :=
  sequence ← new_list;
  _ ← for_in (range num_terms) (fun i =>
         let term := add first_term (mul (of_int i) common_difference) in
         append sequence term);
  mret sequence.

End Heap.
End Obj.

(** ** The rest of the page: what is shown of the sequence *)

(** More builtins, used by the display code. *)
Module PyList.

(** How a slice bound is read against a list: a negative bound counts from
    the end, and the result is clamped to [0 .. len(l)]. *)
Definition slice_index {A} (l : list A) (i : Z) : Z :=
  let j := if i <? 0 then i + len l else i in
  Z.max 0 (Z.min (len l) j).

(** [l[start:stop]]; an omitted [start] is [0]. *)
Definition getslice {A} (l : list A) (start stop : Z) : list A :=
  let a := slice_index l start in
  let b := slice_index l stop in
  take (Z.to_nat (b - a)) (drop (Z.to_nat a) l).

(** [range(start, stop, step)] for a positive [step], the only kind the
    program uses: [start], [start + step], ... below [stop]. *)
Definition range_step (start stop step : Z) : list Z :=
  let count := if start <? stop then (stop - start - 1) / step + 1 else 0 in
  (fun k => start + k * step) <$> seqZ 0 count.

(** [enumerate(l, start)] *)
Definition enumerate {A} (l : list A) (start : Z) : list (Z * A) :=
  zip (seqZ start (len l)) l.

(** A [for] loop whose body may fail: [None] is the failure, which ends
    the loop. *)
Fixpoint for_each {S I} (body : S -> I -> option S) (items : list I) (s : S)
  : option S :=
  match items with
  | [] => Some s
  | item :: rest => s' ← body s item; for_each body rest s'
  end.

End PyList.
Import PyList.

Module Display.
Section Display.

Context {A : Type} `{Number A}.

(** The line under "Generated Sequence" (app.py, lines 87-95): the terms
    whose texts are joined with [", "]. *)
Inductive summary : Type :=
| AllTerms (terms : list A)       (* "**Sequence:** ..." *)
| FirstTen (preview : list A).    (* "**First 10 terms:** ..., ..." *)

Definition sequence_summary (sequence : list A) : summary :=
  if len sequence <=? 20 then AllTerms sequence
  else
    let preview := getslice sequence 0 10 in
    FirstTen preview.

(** A call of [st.write] inside the "View All Terms" expander, by what its
    text is made of. *)
Inductive line : Type :=
| Blank
    (* st.write("") *)
| NumberedRow (terms_row : list (Z * A))
    (* st.write(" | ".join(terms_row)); the cell of (i, term) reads
       "a_(i) = term" *)
| TermsRow (lo hi : Z) (row_terms : list A).
    (* st.write(f"Terms {lo}-{hi}: {row_str}"), row_str the joined terms *)

(** One iteration of the loop over [enumerate(sequence, 1)] (lines
    102-111).  The state is the local variable [terms_row], [None] while
    it is not bound yet, and the lines written so far.  Appending to an
    unbound [terms_row] is Python's [UnboundLocalError]: the step fails. *)
Definition numbered_step (sequence : list A)
           (state : option (list (Z * A)) * list line) (item : Z * A)
  : option (option (list (Z * A)) * list line) :=
  let '(terms_row, written) := state in
  let '(i, term) := item in
  let '(terms_row, written) :=
    if i mod 10 =? 1
    then (Some [], if 1 <? i then written ++ [Blank] else written)
    else (terms_row, written) in
  match terms_row with
  | None => None
  | Some terms_row =>
      let terms_row := terms_row ++ [(i, term)] in
      let written :=
        if (i mod 10 =? 0) || (i =? len sequence)
        then written ++ [NumberedRow terms_row]
        else written in
      Some (Some terms_row, written)
  end.

(** The numbered list, for sequences of up to 100 terms (lines 100-111). *)
Definition numbered_rows (sequence : list A) : option (list line) :=
  '(_, written) ← for_each (numbered_step sequence)
                           (enumerate sequence 1) (None, []);
  Some written.

(** The plain list, for longer sequences (lines 112-118). *)
Definition ranged_rows (sequence : list A) : list line :=
  let terms_per_row := 10 in
  (fun i =>
     let row_terms := getslice sequence i (i + terms_per_row) in
     TermsRow (i + 1) (Z.min (i + terms_per_row) (len sequence)) row_terms)
  <$> range_step 0 (len sequence) terms_per_row.

(** The body of the "View All Terms" expander (lines 98-118). *)
Definition view_all_terms (sequence : list A) : option (list line) :=
  if len sequence <=? 100 then numbered_rows sequence
  else Some (ranged_rows sequence).

(** The terms a list of written lines shows, in order. *)
Definition shown_terms (written : list line) : list A :=
  written ≫= fun ln =>
    match ln with
    | Blank => []
    | NumberedRow terms_row => terms_row.*2
    | TermsRow _ _ row_terms => row_terms
    end.

(** The numbered cells a list of written lines shows, in order. *)
Definition shown_cells (written : list line) : list (Z * A) :=
  written ≫= fun ln =>
    match ln with
    | NumberedRow terms_row => terms_row
    | _ => []
    end.

(** What the [try] block of [main] shows when nothing is raised. *)
Record rendering : Type := {
  sequence_line : summary;
  all_terms : list line;
  metrics : statistics_row A
}.

(** What can take [main] to its [except] clause. *)
Inductive failure : Type :=
| Exception (e : exn)
| UnboundLocalError.

Inductive page : Type :=
| NotPositive
| TooManyTerms
| Rendered (sequence : list A) (shown : rendering)
| ErrorOccurred (f : failure).

(** [main] (app.py, lines 21-153) with the display of the sequence: the
    guards, the call, the summary line, the expander and the metrics, in
    the order of the source.  Texts that do not depend on the sequence
    (titles, the formula, the closing notes) are left out. *)
Definition main (first_term common_difference : A) (num_terms : Z) : page :=
  if num_terms <=? 0 then NotPositive
  else if 1000 <? num_terms then TooManyTerms
  else
    match generate_arithmetic_sequence first_term common_difference num_terms with
    | Raised e => ErrorOccurred (Exception e)
    | Returned sequence =>
        let shown_line := sequence_summary sequence in
        match view_all_terms sequence with
        | None => ErrorOccurred UnboundLocalError
        | Some written =>
            match statistics sequence with
            | Raised e => ErrorOccurred (Exception e)
            | Returned row =>
                Rendered sequence
                         {| sequence_line := shown_line;
                            all_terms := written;
                            metrics := row |}
            end
        end
    end.

End Display.
End Display.

Arguments Display.summary A : clear implicits.
Arguments Display.line A : clear implicits.
Arguments Display.rendering A : clear implicits.
Arguments Display.page A : clear implicits.

(** * Properties *)

(** ** The loop *)

Section Loop.

Context {A : Type} `{Number A}.

Lemma loop_appends (a d : A) (indices : list Z) (sequence : list A) :
  fold_left (loop_body a d) indices sequence
  = sequence ++ (term_at a d <$> indices).
Proof.
  revert sequence.
  induction indices as [|i rest IH]; intros sequence; simpl.
  - by rewrite app_nil_r.
  - rewrite IH. unfold loop_body, term_at. by rewrite <- app_assoc.
Qed.

Lemma generate_returns (a d : A) (n : Z) :
  generate_arithmetic_sequence a d n = Returned (term_at a d <$> range n).
Proof.
  unfold generate_arithmetic_sequence. by rewrite loop_appends.
Qed.

Lemma len_range (n : Z) : 0 <= n -> len (range n) = n.
Proof.
  intros Hn. unfold len, range. rewrite length_seqZ. lia.
Qed.

Lemma len_terms (a d : A) (n : Z) :
  0 <= n -> len (term_at a d <$> range n) = n.
Proof.
  intros Hn. unfold len. rewrite length_fmap. by apply len_range.
Qed.

Lemma getitem_in_range (l : list A) (i : Z) (x : A) :
  0 <= i -> l !! Z.to_nat i = Some x -> getitem l i = Returned x.
Proof.
  intros Hi Hx. unfold getitem.
  assert (Hlt : i < len l).
  { pose proof (lookup_lt_Some _ _ _ Hx). unfold len. lia. }
  assert (E1 : (i <? 0) = false) by (apply Z.ltb_ge; lia).
  assert (E2 : (len l <=? i) = false) by (apply Z.leb_gt; lia).
  cbv zeta. rewrite E1. cbv iota. rewrite E1, E2. simpl. by rewrite Hx.
Qed.

Lemma getitem_from_end (l : list A) (k : Z) (x : A) :
  0 < k <= len l -> l !! Z.to_nat (len l - k) = Some x ->
  getitem l (- k) = Returned x.
Proof.
  intros Hk Hx. unfold getitem.
  assert (E0 : (- k <? 0) = true) by (apply Z.ltb_lt; lia).
  assert (E1 : (len l - k <? 0) = false) by (apply Z.ltb_ge; lia).
  assert (E2 : (len l <=? len l - k) = false) by (apply Z.leb_gt; lia).
  cbv zeta. rewrite E0. cbv iota.
  replace (- k + len l) with (len l - k) by lia.
  rewrite E1, E2. simpl. by rewrite Hx.
Qed.

Lemma lookup_terms (a d : A) (n i : Z) :
  0 <= i < n ->
  (term_at a d <$> range n) !! Z.to_nat i = Some (term_at a d i).
Proof.
  intros Hi. rewrite list_lookup_fmap. unfold range.
  rewrite (lookup_seqZ_lt 0 n (Z.to_nat i)) by lia.
  simpl. f_equal. f_equal. lia.
Qed.

Lemma getitem_terms (a d : A) (n i : Z) :
  0 <= i < n ->
  getitem (term_at a d <$> range n) i = Returned (term_at a d i).
Proof.
  intros Hi. apply getitem_in_range; [lia|]. by apply lookup_terms.
Qed.

Lemma getitem_terms_last (a d : A) (n : Z) :
  1 <= n ->
  getitem (term_at a d <$> range n) (-1) = Returned (term_at a d (n - 1)).
Proof.
  intros Hn. apply (getitem_from_end _ 1).
  - rewrite len_terms by lia. lia.
  - rewrite len_terms by lia. apply lookup_terms. lia.
Qed.

End Loop.

(** ** The generator *)

Section Generator.

Context {A : Type} `{Number A}.

(** C3: for a request with [num_terms >= 1] the call returns, and the
    list it returns has exactly [num_terms] items. *)
Theorem generate_length (first_term common_difference : A) (num_terms : Z) :
  1 <= num_terms ->
  exists sequence,
    generate_arithmetic_sequence first_term common_difference num_terms
    = Returned sequence
    /\ len sequence = num_terms.
Proof.
  intros Hn. eexists. split; [apply generate_returns|].
  apply len_terms. lia.
Qed.

(** C2: for a request with [num_terms >= 1] and an index
    [0 <= i < num_terms], item [i] of the returned list is
    [first_term + i * common_difference], computed with the operators of
    the number type. *)
Theorem generate_item (first_term common_difference : A) (num_terms i : Z) :
  1 <= num_terms ->
  0 <= i < num_terms ->
  exists sequence,
    generate_arithmetic_sequence first_term common_difference num_terms
    = Returned sequence
    /\ getitem sequence i
       = Returned (add first_term (mul (of_int i) common_difference)).
Proof.
  intros Hn Hi. eexists. split; [apply generate_returns|].
  by apply getitem_terms.
Qed.

(** C10: for every [num_terms <= 0] the call returns the empty list; it
    raises nothing. *)
Theorem generate_nonpositive (first_term common_difference : A) (num_terms : Z) :
  num_terms <= 0 ->
  generate_arithmetic_sequence first_term common_difference num_terms
  = Returned [].
Proof.
  intros Hn. rewrite generate_returns. unfold range.
  by rewrite seqZ_nil.
Qed.

(** C4, as the code has it: a call with [num_terms < 1] returns the empty
    list without an error; it is the page that turns such a request down,
    before the generator is called, and then shows no sequence and no
    statistics. *)
Theorem nonpositive_rejected_by_main
        (first_term common_difference : A) (num_terms : Z) :
  num_terms < 1 ->
  generate_arithmetic_sequence first_term common_difference num_terms
  = Returned []
  /\ main first_term common_difference num_terms = NotPositive.
Proof.
  intros Hn. split.
  - rewrite generate_returns. unfold range. by rewrite seqZ_nil by lia.
  - unfold main.
    by replace (num_terms <=? 0) with true by (symmetry; apply Z.leb_le; lia).
Qed.

(** C5: on the empty list the statistics block raises at its first
    statement, [sequence[0]]: Python's [IndexError] is the error of the
    empty sequence, and no metric is computed. *)
Theorem statistics_empty :
  statistics (@nil A) = Raised IndexError.
Proof. reflexivity. Qed.

End Generator.

(** ** Purity *)

Section Purity.

Context {A : Type} `{Number A}.

Local Abbreviation heap := (gmap positive (list A)).

Lemma append_existing (l : positive) (x : A) (items : list A) (h : heap) :
  h !! l = Some items ->
  Obj.append l x h = (tt, <[l := items ++ [x]]> h).
Proof.
  intros Hl. unfold Obj.append. f_equal.
  apply map_eq. intros k. destruct (decide (k = l)) as [->|Hne].
  - by rewrite lookup_alter_eq, lookup_insert_eq, Hl.
  - by rewrite lookup_alter_ne, lookup_insert_ne.
Qed.

Lemma for_in_appends (l : positive) (f : Z -> A) (indices : list Z) :
  forall (items : list A) (h : heap),
    h !! l = Some items ->
    Obj.for_in indices (fun i => Obj.append l (f i)) h
    = (tt, <[l := items ++ (f <$> indices)]> h).
Proof.
  induction indices as [|i rest IH]; intros items h Hl; simpl.
  - unfold mret, Obj.M_ret. f_equal.
    rewrite app_nil_r. symmetry. by apply insert_id.
  - unfold mbind, Obj.M_bind.
    rewrite (append_existing l (f i) items h Hl).
    rewrite (IH (items ++ [f i])) by apply lookup_insert_eq.
    f_equal. rewrite insert_insert_eq. by rewrite <- app_assoc.
Qed.

(** The computation on list objects creates one new object, fills it with
    the items the function on values returns, and leaves the rest of the
    heap as it was. *)
Lemma generate_on_heap (a d : A) (n : Z) (h : heap) :
  Obj.generate_arithmetic_sequence a d n h
  = (fresh (dom h), <[fresh (dom h) := term_at a d <$> range n]> h).
Proof.
  unfold Obj.generate_arithmetic_sequence, Obj.new_list.
  unfold mbind, Obj.M_bind, mret, Obj.M_ret. cbv zeta.
  rewrite (for_in_appends (fresh (dom h))
             (fun i => add a (mul (of_int i) d)) (range n) [])
    by apply lookup_insert_eq.
  by rewrite insert_insert_eq.
Qed.

(** C6: run in any two heaps, the function yields lists with identical
    items, the items being those of the function on values; the list it
    returns is a new object, and every object that existed before the
    call still holds what it held. *)
Theorem generate_deterministic_pure
        (first_term common_difference : A) (num_terms : Z) (h1 h2 : heap) :
  exists sequence,
    generate_arithmetic_sequence first_term common_difference num_terms
    = Returned sequence
    /\ (let '(l1, h1') :=
          Obj.generate_arithmetic_sequence first_term common_difference num_terms h1 in
        let '(l2, h2') :=
          Obj.generate_arithmetic_sequence first_term common_difference num_terms h2 in
        h1' !! l1 = Some sequence
        /\ h2' !! l2 = Some sequence
        /\ h1 !! l1 = None
        /\ h2 !! l2 = None
        /\ (forall l, l <> l1 -> h1' !! l = h1 !! l)
        /\ (forall l, l <> l2 -> h2' !! l = h2 !! l)).
Proof.
  eexists. split; [apply generate_returns|].
  rewrite !generate_on_heap.
  repeat split.
  - apply lookup_insert_eq.
  - apply lookup_insert_eq.
  - apply not_elem_of_dom, is_fresh.
  - apply not_elem_of_dom, is_fresh.
  - intros l Hl. by apply lookup_insert_ne.
  - intros l Hl. by apply lookup_insert_ne.
Qed.

End Purity.

(** ** The statistics of a generated sequence *)

Section Statistics.

Context {A : Type} `{Number A}.

(** On a generated sequence of at least one term the statistics block
    runs to its end, provided [2] is not zero in the number type. *)
Lemma statistics_terms (a d : A) (n : Z) :
  1 <= n ->
  is_zero (of_int 2) = false ->
  statistics (term_at a d <$> range n)
  = Returned {| first := term_at a d 0;
                last := term_at a d (n - 1);
                sum_direct := sum (term_at a d <$> range n);
                sum_formula := mul (div (of_int n) (of_int 2))
                                   (add (term_at a d 0) (term_at a d (n - 1))) |}.
Proof.
  intros Hn H2. unfold statistics.
  rewrite (getitem_terms a d n 0) by lia.
  rewrite (getitem_terms_last a d n) by lia.
  rewrite len_terms by lia.
  unfold truediv. rewrite H2. reflexivity.
Qed.

(** A request the page accepts is rendered: the sequence and its four
    metrics. *)
Lemma main_renders (a d : A) (n : Z) :
  1 <= n <= 1000 ->
  is_zero (of_int 2) = false ->
  exists row,
    statistics (term_at a d <$> range n) = Returned row
    /\ main a d n = Rendered (term_at a d <$> range n) row.
Proof.
  intros Hn H2. eexists. split; [apply statistics_terms; lia || done|].
  unfold main.
  replace (n <=? 0) with false by (symmetry; apply Z.leb_gt; lia).
  replace (1000 <? n) with false by (symmetry; apply Z.ltb_ge; lia).
  rewrite generate_returns.
  unfold mbind at 1, outcome_bind.
  rewrite statistics_terms by (lia || done).
  reflexivity.
Qed.

End Statistics.

(** ** Exact arithmetic *)

Section Exact.

Local Open Scope Q_scope.

Lemma inject_Z_succ (m : nat) :
  inject_Z (Z.of_nat (S m)) == inject_Z (Z.of_nat m) + 1.
Proof.
  rewrite Nat2Z.inj_succ. unfold Z.succ. by rewrite inject_Z_plus.
Qed.

(** Gauss' sum: the terms, added from left to right. *)
Lemma sum_terms_exact (a d : Q) (m : nat) :
  sum (term_at a d <$> range (Z.of_nat m))
  == inject_Z (Z.of_nat m) * a
     + d * (inject_Z (Z.of_nat m) * (inject_Z (Z.of_nat m) - 1) / 2).
Proof.
  induction m as [|m IH].
  - unfold sum; simpl. unfold inject_Z. field.
  - unfold range in *. rewrite seqZ_S, fmap_app.
    unfold sum in *. rewrite fold_left_app. simpl fold_left.
    cbn [add Q_Number]. rewrite IH.
    unfold term_at. cbn [add mul of_int Q_Number].
    rewrite inject_Z_succ. rewrite Z.add_0_l. field.
Qed.

(** C1, in exact arithmetic: for every generated sequence of at least one
    term the statistics block returns its four metrics, and the sum of
    the terms equals [num_terms / 2 * (first + last)]. *)
Theorem sum_direct_eq_sum_formula
        (first_term common_difference : Q) (num_terms : Z) :
  (1 <= num_terms)%Z ->
  exists sequence row,
    generate_arithmetic_sequence first_term common_difference num_terms
    = Returned sequence
    /\ statistics sequence = Returned row
    /\ sum_direct row == sum_formula row.
Proof.
  intros Hn. eexists. eexists.
  split; [apply generate_returns|].
  split; [by apply statistics_terms|].
  cbn [sum_direct sum_formula].
  replace num_terms with (Z.of_nat (Z.to_nat num_terms)) at 1 by lia.
  rewrite sum_terms_exact. rewrite Z2Nat.id by lia.
  unfold term_at. cbn [add mul of_int div Q_Number].
  unfold Z.sub. rewrite inject_Z_plus.
  change (inject_Z (- (1))%Z) with (- (1))%Q.
  change (inject_Z 0) with 0%Q. change (inject_Z 2) with 2%Q.
  field.
Qed.

(** C7, in exact arithmetic: in a generated sequence of at least two
    terms, every term after the first exceeds its predecessor by exactly
    [common_difference]. *)
Theorem consecutive_difference_exact
        (first_term common_difference : Q) (num_terms i : Z) :
  (2 <= num_terms)%Z ->
  (0 <= i < num_terms - 1)%Z ->
  exists sequence x y,
    generate_arithmetic_sequence first_term common_difference num_terms
    = Returned sequence
    /\ getitem sequence i = Returned x
    /\ getitem sequence (i + 1) = Returned y
    /\ sub y x == common_difference.
Proof.
  intros Hn Hi. eexists. eexists. eexists.
  split; [apply generate_returns|].
  split; [apply getitem_terms; lia|].
  split; [apply getitem_terms; lia|].
  unfold term_at. cbn [add sub mul of_int Q_Number].
  rewrite inject_Z_plus. change (inject_Z 1) with 1%Q. ring.
Qed.

End Exact.

(** ** Binary64 arithmetic and the worked examples *)

Section Examples.

Local Open Scope float_scope.

(** C8: [generate(1, 1, 10)] is [[1, ..., 10]]; the sum of its terms is 55
    (added from left to right, and by compensated summation), and so is
    the closed form.  In binary64 and in exact arithmetic. *)
Theorem generate_one_to_ten :
  generate_arithmetic_sequence 1 1 10%Z
  = Returned [1; 2; 3; 4; 5; 6; 7; 8; 9; 10]
  /\ statistics [1; 2; 3; 4; 5; 6; 7; 8; 9; 10]
     = Returned {| first := 1; last := 10;
                   sum_direct := 55; sum_formula := 55 |}
  /\ Float.sum_compensated [1; 2; 3; 4; 5; 6; 7; 8; 9; 10] = 55
  /\ generate_arithmetic_sequence 1%Q 1%Q 10%Z
     = Returned [1; 2; 3; 4; 5; 6; 7; 8; 9; 10]%Q
  /\ exists row,
       statistics [1; 2; 3; 4; 5; 6; 7; 8; 9; 10]%Q = Returned row
       /\ (sum_direct row == 55)%Q /\ (sum_formula row == 55)%Q.
Proof.
  split; [vm_compute; reflexivity|].
  split; [vm_compute; reflexivity|].
  split; [vm_compute; reflexivity|].
  split; [vm_compute; reflexivity|].
  eexists. split; [vm_compute; reflexivity|].
  split; reflexivity.
Qed.

(** C9: [generate(5, -2, 4)] is [[5, 3, 1, -1]] and its terms sum to 8.
    In binary64 and in exact arithmetic. *)
Theorem generate_five_down :
  generate_arithmetic_sequence 5 (-2) 4%Z = Returned [5; 3; 1; -1]
  /\ sum [5; 3; 1; -1] = 8
  /\ Float.sum_compensated [5; 3; 1; -1] = 8
  /\ generate_arithmetic_sequence 5%Q (-2)%Q 4%Z
     = Returned [5; 3; 1; -1]%Q
  /\ (sum [5; 3; 1; -1]%Q == 8)%Q.
Proof.
  repeat split; vm_compute; reflexivity.
Qed.

(** C1 fails in binary64: for [generate(0.3, -0.2, 4)] the sum of the
    terms and the closed form differ by a quarter of the larger one,
    whichever way [sum] adds. *)
Lemma sum_formula_differs_in_binary64 :
  exists sequence row,
    generate_arithmetic_sequence 0.3 (-0.2) 4%Z = Returned sequence
    /\ statistics sequence = Returned row
    /\ sum_direct row = -1.6653345369377348e-16
    /\ Float.sum_compensated sequence = -1.6653345369377348e-16
    /\ sum_formula row = -2.220446049250313e-16
    /\ Float.isclose 1e-9 (sum_direct row) (sum_formula row) = false
    /\ Float.isclose 1e-9 (Float.sum_compensated sequence) (sum_formula row)
       = false.
Proof.
  eexists. eexists.
  split; [vm_compute; reflexivity|].
  split; [vm_compute; reflexivity|].
  repeat split; vm_compute; reflexivity.
Qed.

(** C7 fails in binary64: in [generate(0.0, 0.1, 4)] the last term minus
    its predecessor is [0.10000000000000003], which is not [0.1]. *)
Lemma consecutive_difference_inexact_in_binary64 :
  exists sequence x y,
    generate_arithmetic_sequence 0 0.1 4%Z = Returned sequence
    /\ getitem sequence 2 = Returned x
    /\ getitem sequence (2 + 1) = Returned y
    /\ sub y x = 0.10000000000000003
    /\ PrimFloat.eqb (sub y x) 0.1 = false.
Proof.
  eexists. eexists. eexists.
  split; [vm_compute; reflexivity|].
  split; [vm_compute; reflexivity|].
  split; [vm_compute; reflexivity|].
  split; vm_compute; reflexivity.
Qed.

(** C4 fails: [generate(1.0, 1.0, 0)] returns the empty list; no error is
    raised. *)
Lemma generate_zero_terms_no_error :
  generate_arithmetic_sequence 1 1 0%Z = Returned []
  /\ ~ exists e, generate_arithmetic_sequence 1 1 0%Z = Raised e.
Proof.
  split; [reflexivity|].
  intros [e He]. vm_compute in He. discriminate He.
Qed.

Lemma generate_length_witness :
  (1 <= 10)%Z
  /\ exists sequence,
       generate_arithmetic_sequence 1 1 10%Z = Returned sequence
       /\ len sequence = 10%Z.
Proof.
  split; [lia | apply (generate_length 1 1 10%Z); lia].
Defined.

Lemma generate_item_witness :
  (1 <= 4)%Z /\ (0 <= 3 < 4)%Z
  /\ exists sequence,
       generate_arithmetic_sequence 0 0.5 4%Z = Returned sequence
       /\ getitem sequence 3 = Returned (add 0 (mul (of_int 3) 0.5)).
Proof.
  split; [lia|]. split; [lia|].
  apply (generate_item 0 0.5 4%Z 3%Z); lia.
Defined.

Lemma generate_nonpositive_witness :
  (-3 <= 0)%Z /\ generate_arithmetic_sequence 1 1 (-3)%Z = Returned [].
Proof.
  split; [lia | apply (generate_nonpositive 1 1 (-3)%Z); lia].
Defined.

Lemma nonpositive_rejected_by_main_witness :
  (0 < 1)%Z
  /\ generate_arithmetic_sequence 1 1 0%Z = Returned []
  /\ main 1 1 0%Z = NotPositive.
Proof.
  split; [lia | apply (nonpositive_rejected_by_main 1 1 0%Z); lia].
Defined.

Lemma sum_direct_eq_sum_formula_witness :
  (1 <= 4)%Z
  /\ exists sequence row,
       generate_arithmetic_sequence (3 # 10)%Q (- (2 # 10))%Q 4%Z
       = Returned sequence
       /\ statistics sequence = Returned row
       /\ (sum_direct row == sum_formula row)%Q.
Proof.
  split; [lia|].
  apply (sum_direct_eq_sum_formula (3 # 10)%Q (- (2 # 10))%Q 4%Z); lia.
Defined.

Lemma consecutive_difference_exact_witness :
  (2 <= 4)%Z /\ (0 <= 2 < 4 - 1)%Z
  /\ exists sequence x y,
       generate_arithmetic_sequence 0%Q (1 # 10)%Q 4%Z = Returned sequence
       /\ getitem sequence 2 = Returned x
       /\ getitem sequence (2 + 1) = Returned y
       /\ (sub y x == 1 # 10)%Q.
Proof.
  split; [lia|]. split; [lia|].
  apply (consecutive_difference_exact 0%Q (1 # 10)%Q 4%Z 2%Z); lia.
Defined.

End Examples.


(** ** Slices, stepped ranges and enumeration *)

Section Builtins.

Context {A : Type}.

Lemma getslice_chunk (l : list A) (i k : Z) :
  0 <= i -> 0 <= k ->
  getslice l i (i + k) = take (Z.to_nat k) (drop (Z.to_nat i) l).
Proof.
  intros Hi Hk. unfold getslice, slice_index.
  replace (i <? 0) with false by (symmetry; apply Z.ltb_ge; lia).
  replace (i + k <? 0) with false by (symmetry; apply Z.ltb_ge; lia).
  cbv zeta. unfold len.
  destruct (decide (Z.of_nat (length l) <= i)) as [Hge|Hlt].
  - rewrite (drop_ge l (Z.to_nat i)) by lia.
    rewrite drop_ge by lia. by rewrite !take_nil.
  - replace (Z.to_nat (0 `max` (Z.of_nat (length l) `min` i)))
      with (Z.to_nat i) by lia.
    destruct (decide (i + k <= Z.of_nat (length l))) as [Hin|Hout].
    + f_equal. lia.
    + rewrite !take_ge; [done| |]; rewrite length_drop; lia.
Qed.

Lemma range_step_nil (start stop step : Z) :
  stop <= start -> range_step start stop step = [].
Proof.
  intros Hs. unfold range_step.
  by replace (start <? stop) with false by (symmetry; apply Z.ltb_ge; lia).
Qed.

Lemma range_step_cons (start stop step : Z) :
  0 < step -> start < stop ->
  range_step start stop step = start :: range_step (start + step) stop step.
Proof.
  intros Hstep Hlt. unfold range_step.
  replace (start <? stop) with true by (symmetry; apply Z.ltb_lt; lia).
  assert (Hq : 0 <= (stop - start - 1) / step) by (apply Z.div_pos; lia).
  rewrite seqZ_cons by lia. rewrite fmap_cons. f_equal; [lia|].
  replace (Z.succ 0) with (1 + 0) by lia. rewrite <- fmap_add_seqZ.
  rewrite <- list_fmap_compose.
  replace (Z.pred ((stop - start - 1) / step + 1))
    with ((stop - start - 1) / step) by lia.
  destruct (decide (start + step < stop)) as [Hmore|Hlast].
  - replace (start + step <? stop) with true by (symmetry; apply Z.ltb_lt; lia).
    replace (stop - (start + step) - 1) with (stop - start - 1 + (-1) * step) by lia.
    rewrite Z.div_add by lia.
    replace ((stop - start - 1) / step + -1 + 1)
      with ((stop - start - 1) / step) by lia.
    apply list_fmap_ext. intros _ k _. simpl. lia.
  - replace (start + step <? stop) with false by (symmetry; apply Z.ltb_ge; lia).
    rewrite Z.div_small by lia. reflexivity.
Qed.

Lemma enumerate_nil (start : Z) : enumerate (@nil A) start = [].
Proof. reflexivity. Qed.

Lemma enumerate_cons (x : A) (l : list A) (start : Z) :
  enumerate (x :: l) start = (start, x) :: enumerate l (start + 1).
Proof.
  unfold enumerate, len. cbn [length].
  rewrite seqZ_cons by lia. cbn [zip_with].
  replace (Z.pred (Z.of_nat (S (length l)))) with (Z.of_nat (length l)) by lia.
  by replace (Z.succ start) with (start + 1) by lia.
Qed.

Lemma enumerate_app (l k : list A) (start : Z) :
  enumerate (l ++ k) start = enumerate l start ++ enumerate k (start + len l).
Proof.
  revert start. induction l as [|x l IH]; intros start.
  - change (len (@nil A)) with 0. by rewrite Z.add_0_r.
  - cbn [app]. rewrite !enumerate_cons, IH. cbn [app].
    replace (start + 1 + len l) with (start + len (x :: l)); [done|].
    unfold len. cbn [length]. lia.
Qed.

Lemma enumerate_snd (l : list A) (start : Z) : (enumerate l start).*2 = l.
Proof.
  revert start. induction l as [|x l IH]; intros start; [done|].
  rewrite enumerate_cons. cbn. by rewrite IH.
Qed.

Lemma for_each_app {S I} (body : S -> I -> option S) (items rest : list I) (s : S) :
  for_each body (items ++ rest) s
  = for_each body items s ≫= for_each body rest.
Proof.
  revert s. induction items as [|x items IH]; intros s; [done|].
  cbn. destruct (body s x) as [s'|]; [apply IH|done].
Qed.

End Builtins.

(** ** The lists of terms on the page *)

Ltac mod_lia := Z.div_mod_to_equations; lia.

Section Rows.

Context {A : Type}.

(** Walking a list in steps of ten: what is collected from position [s] on
    is the chunk at [s] followed by what is collected from [s + 10]. *)
Lemma range_step_bind {B} (f F : Z -> list B) (n : Z) :
  (forall s, n <= s -> F s = []) ->
  (forall s, 0 <= s < n -> F s = f s ++ F (s + 10)) ->
  forall (m : nat) (s : Z),
    0 <= s -> n - s <= Z.of_nat m ->
    range_step s n 10 ≫= f = F s.
Proof.
  intros Hend Hstep. induction m as [|m IH]; intros s Hs Hm.
  - rewrite range_step_nil, Hend by lia. reflexivity.
  - destruct (decide (n <= s)) as [Hge|Hlt].
    + rewrite range_step_nil, Hend by lia. reflexivity.
    + rewrite range_step_cons by lia. rewrite bind_cons.
      rewrite IH by lia. symmetry. apply Hstep. lia.
Qed.

Lemma drop_chunk (l : list A) (s : Z) :
  0 <= s ->
  drop (Z.to_nat s) l = getslice l s (s + 10) ++ drop (Z.to_nat (s + 10)) l.
Proof.
  intros Hs. rewrite getslice_chunk by lia.
  replace (Z.to_nat (s + 10)) with (Z.to_nat s + Z.to_nat 10)%nat by lia.
  rewrite <- drop_drop. by rewrite take_drop.
Qed.

Lemma len_getslice_chunk (l : list A) (s : Z) :
  0 <= s < len l ->
  len (getslice l s (s + 10)) = Z.min 10 (len l - s).
Proof.
  intros Hs. rewrite getslice_chunk by lia. unfold len in *.
  rewrite length_take, length_drop. lia.
Qed.

Lemma enumerate_drop_chunk (l : list A) (s : Z) :
  0 <= s < len l ->
  enumerate (drop (Z.to_nat s) l) (s + 1)
  = enumerate (getslice l s (s + 10)) (s + 1)
    ++ enumerate (drop (Z.to_nat (s + 10)) l) (s + 10 + 1).
Proof.
  intros Hs. rewrite (drop_chunk l s) at 1 by lia.
  rewrite enumerate_app. f_equal.
  rewrite len_getslice_chunk by lia.
  destruct (decide (10 <= len l - s)) as [Hfull|Hpart].
  - f_equal. lia.
  - rewrite drop_ge by (unfold len in *; lia). by rewrite !enumerate_nil.
Qed.

Lemma shown_terms_ranged_from (l : list A) (m : nat) (s : Z) :
  0 <= s -> len l - s <= Z.of_nat m ->
  Display.shown_terms
    ((fun i => Display.TermsRow (i + 1) (Z.min (i + 10) (len l))
                                (getslice l i (i + 10)))
       <$> range_step s (len l) 10)
  = drop (Z.to_nat s) l.
Proof.
  intros Hs Hm. unfold Display.shown_terms.
  rewrite list_fmap_bind.
  apply (range_step_bind _ (fun s => drop (Z.to_nat s) l) (len l)) with m;
    try lia.
  - intros s' Hs'. apply drop_ge. unfold len in *. lia.
  - intros s' Hs'. apply drop_chunk. lia.
Qed.

End Rows.

Section NumberedRows.

Context {A : Type}.

Variable sequence : list A.

(** The two ways an iteration goes: at the first item of a row
    [terms_row] is bound anew, elsewhere the item is appended to it. *)
Lemma numbered_step_first (i : Z) (x : A)
      (terms_row : option (list (Z * A))) (written : list (Display.line A)) :
  i mod 10 = 1 ->
  Display.numbered_step sequence (terms_row, written) (i, x)
  = Some (Some [(i, x)],
          if (i mod 10 =? 0) || (i =? len sequence)
          then (written ++ (if 1 <? i then [Display.Blank] else []))
                 ++ [Display.NumberedRow [(i, x)]]
          else written ++ (if 1 <? i then [Display.Blank] else [])).
Proof.
  intros Hi. unfold Display.numbered_step.
  rewrite (proj2 (Z.eqb_eq _ _) Hi). cbn [app].
  destruct (1 <? i); [done|]. by rewrite app_nil_r.
Qed.

Lemma numbered_step_next (i : Z) (x : A)
      (row : list (Z * A)) (written : list (Display.line A)) :
  i mod 10 <> 1 ->
  Display.numbered_step sequence (Some row, written) (i, x)
  = Some (Some (row ++ [(i, x)]),
          if (i mod 10 =? 0) || (i =? len sequence)
          then written ++ [Display.NumberedRow (row ++ [(i, x)])]
          else written).
Proof.
  intros Hi. unfold Display.numbered_step.
  by rewrite (proj2 (Z.eqb_neq _ _) Hi).
Qed.

(** Inside a row: the items after the first are appended to [terms_row],
    and the row is written at its last item. *)
Lemma numbered_tail (xs : list A) :
  forall (s j : Z) (row : list (Z * A)) (written : list (Display.line A)),
    s mod 10 = 0 -> 1 <= j -> j + len xs <= 10 -> xs <> [] ->
    s + j + len xs <= len sequence ->
    j + len xs = 10 \/ s + j + len xs = len sequence ->
    for_each (Display.numbered_step sequence) (enumerate xs (s + 1 + j))
             (Some row, written)
    = Some (Some (row ++ enumerate xs (s + 1 + j)),
            written ++ [Display.NumberedRow (row ++ enumerate xs (s + 1 + j))]).
Proof.
  induction xs as [|x xs IH]; intros s j row written Hs Hj Hrow Hne Hin Hend;
    [done|].
  assert (Hlen : len (x :: xs) = 1 + len xs) by (unfold len; cbn [length]; lia).
  assert (Hpos : 0 <= len xs) by (unfold len; lia).
  rewrite Hlen in *.
  rewrite enumerate_cons. cbn [for_each].
  rewrite numbered_step_next by mod_lia.
  cbn [mbind option_bind].
  destruct (decide (xs = [])) as [->|Hmore].
  - change (len (@nil A)) with 0 in *.
    replace (((s + 1 + j) mod 10 =? 0) || (s + 1 + j =? len sequence)) with true.
    + rewrite enumerate_nil. reflexivity.
    + symmetry. apply orb_true_iff.
      destruct Hend as [Hten|Hlast]; [left|right]; apply Z.eqb_eq; mod_lia.
  - assert (Hxs : 1 <= len xs).
    { destruct xs; [done|]. unfold len; cbn [length]; lia. }
    replace (((s + 1 + j) mod 10 =? 0) || (s + 1 + j =? len sequence)) with false.
    + replace (s + 1 + j + 1) with (s + 1 + (j + 1)) by lia.
      rewrite (IH s (j + 1)) by (try done; lia).
      by rewrite <- !app_assoc.
    + symmetry. apply orb_false_iff.
      split; apply Z.eqb_neq; mod_lia.
Qed.

(** A whole row: its first item binds [terms_row] anew, after a blank line
    when it is not the first row. *)
Lemma numbered_block (xs : list A) (s : Z)
      (terms_row : option (list (Z * A))) (written : list (Display.line A)) :
  s mod 10 = 0 -> 0 <= s -> xs <> [] -> len xs <= 10 ->
  s + len xs <= len sequence ->
  len xs = 10 \/ s + len xs = len sequence ->
  for_each (Display.numbered_step sequence) (enumerate xs (s + 1))
           (terms_row, written)
  = Some (Some (enumerate xs (s + 1)),
          written ++ (if 0 <? s then [Display.Blank] else [])
                  ++ [Display.NumberedRow (enumerate xs (s + 1))]).
Proof.
  intros Hs Hs0 Hne Hrow Hin Hend.
  destruct xs as [|x xs]; [done|].
  assert (Hlen : len (x :: xs) = 1 + len xs) by (unfold len; cbn [length]; lia).
  assert (Hpos : 0 <= len xs) by (unfold len; lia).
  rewrite Hlen in *.
  rewrite enumerate_cons. cbn [for_each].
  rewrite numbered_step_first by mod_lia.
  cbn [mbind option_bind].
  replace (1 <? s + 1) with (0 <? s)
    by (destruct (Z.ltb_spec 0 s), (Z.ltb_spec 1 (s + 1)); lia).
  destruct (decide (xs = [])) as [->|Hmore].
  - change (len (@nil A)) with 0 in *.
    replace (((s + 1) mod 10 =? 0) || (s + 1 =? len sequence)) with true.
    + rewrite enumerate_nil. by rewrite <- app_assoc.
    + symmetry. apply orb_true_iff. right. apply Z.eqb_eq. lia.
  - assert (Hxs : 1 <= len xs).
    { destruct xs; [done|]. unfold len; cbn [length]; lia. }
    replace (((s + 1) mod 10 =? 0) || (s + 1 =? len sequence)) with false.
    + rewrite (numbered_tail xs s 1) by (try done; lia).
      by rewrite <- app_assoc.
    + symmetry. apply orb_false_iff.
      split; apply Z.eqb_neq; mod_lia.
Qed.

(** The loop from a row boundary [s] on writes the rows that start at [s],
    [s + 10], ..., each holding the terms [sequence[i:i+10]] numbered from
    [i + 1]. *)
Lemma numbered_from (m : nat) :
  forall (s : Z) (terms_row : option (list (Z * A)))
         (written : list (Display.line A)),
    s mod 10 = 0 -> 0 <= s -> len sequence - s <= Z.of_nat m ->
    exists terms_row',
      for_each (Display.numbered_step sequence)
               (enumerate (drop (Z.to_nat s) sequence) (s + 1))
               (terms_row, written)
      = Some (terms_row',
              written ++
                (range_step s (len sequence) 10 ≫= fun i =>
                   (if 0 <? i then [Display.Blank] else [])
                   ++ [Display.NumberedRow
                         (enumerate (getslice sequence i (i + 10)) (i + 1))])).
Proof.
  induction m as [|m IH]; intros s terms_row written Hs Hs0 Hm.
  - exists terms_row.
    rewrite drop_ge by (unfold len in *; lia).
    rewrite range_step_nil by lia. cbn. by rewrite app_nil_r.
  - destruct (decide (len sequence <= s)) as [Hge|Hlt].
    + exists terms_row.
      rewrite drop_ge by (unfold len in *; lia).
      rewrite range_step_nil by lia. cbn. by rewrite app_nil_r.
    + rewrite enumerate_drop_chunk by lia.
      rewrite for_each_app.
      assert (Hchunk := len_getslice_chunk sequence s ltac:(lia)).
      rewrite numbered_block; try lia.
      * cbn [mbind option_bind].
        destruct (IH (s + 10) (Some (enumerate (getslice sequence s (s + 10)) (s + 1)))
                     (written ++ (if 0 <? s then [Display.Blank] else [])
                        ++ [Display.NumberedRow
                              (enumerate (getslice sequence s (s + 10)) (s + 1))]))
          as [terms_row' Hrest]; [mod_lia|lia|lia|].
        exists terms_row'. rewrite Hrest.
        rewrite (range_step_cons s) by lia. rewrite bind_cons.
        by rewrite <- !app_assoc.
      * intros Hnil. rewrite Hnil in Hchunk.
        change (len (@nil A)) with 0 in Hchunk. lia.
Qed.

End NumberedRows.

(** ** What the expander shows *)

Section Expander.

Context {A : Type}.

Lemma bind_bind {B C D} (f : B -> list C) (g : C -> list D) (l : list B) :
  (l ≫= f) ≫= g = l ≫= fun x => f x ≫= g.
Proof.
  induction l as [|x l IH]; [done|].
  by rewrite !bind_cons, bind_app, IH.
Qed.

Lemma elem_of_range_step (i start stop step : Z) :
  0 < step -> i ∈ range_step start stop step ->
  start <= i < stop /\ (i - start) mod step = 0.
Proof.
  intros Hstep Hi. unfold range_step in Hi.
  apply list_elem_of_fmap in Hi as (k & -> & Hk).
  apply elem_of_seqZ in Hk.
  destruct (Z.ltb_spec start stop) as [Hlt|Hge]; [|lia].
  assert (Hq : step * ((stop - start - 1) / step) <= stop - start - 1)
    by (apply Z.mul_div_le; lia).
  split; [nia|].
  replace (start + k * step - start) with (k * step) by lia.
  apply Z.mod_mul. lia.
Qed.

Lemma getslice_to_end (l : list A) (i : Z) :
  0 <= i ->
  getslice l i (Z.min (i + 10) (len l)) = getslice l i (i + 10).
Proof.
  intros Hi. destruct (decide (i + 10 <= len l)) as [Hin|Hout].
  - by replace (Z.min (i + 10) (len l)) with (i + 10) by lia.
  - replace (Z.min (i + 10) (len l)) with (len l) by lia.
    destruct (decide (i <= len l)) as [Hle|Hgt].
    + transitivity (getslice l i (i + (len l - i))); [f_equal; lia|].
      rewrite !getslice_chunk by lia.
      rewrite !take_ge; [done| |]; rewrite length_drop; unfold len in *; lia.
    + rewrite (getslice_chunk l i 10) by lia.
      unfold getslice, slice_index.
      replace (i <? 0) with false by (symmetry; apply Z.ltb_ge; lia).
      replace (len l <? 0) with false
        by (symmetry; apply Z.ltb_ge; unfold len; lia).
      cbv zeta. rewrite !drop_ge by (unfold len in *; lia).
      by rewrite !take_nil.
Qed.

(** The rows of the numbered list, as [numbered_from] describes them. *)
Lemma numbered_rows_written (l : list A) :
  Display.numbered_rows l
  = Some (range_step 0 (len l) 10 ≫= fun i =>
            (if 0 <? i then [Display.Blank] else [])
            ++ [Display.NumberedRow (enumerate (getslice l i (i + 10)) (i + 1))]).
Proof.
  unfold Display.numbered_rows.
  destruct (numbered_from l (length l) 0 None []) as [terms_row' Hrun];
    [reflexivity|lia|unfold len; lia|].
  change (drop (Z.to_nat 0) l) with l in Hrun.
  change (0 + 1) with 1 in Hrun.
  by rewrite Hrun.
Qed.

Lemma numbered_row_cells (l : list A) (s : Z) :
  ((if 0 <? s then [Display.Blank] else [])
   ++ [Display.NumberedRow (enumerate (getslice l s (s + 10)) (s + 1))])
  ≫= (fun ln : Display.line A =>
        match ln with
        | Display.NumberedRow terms_row => terms_row
        | _ => []
        end)
  = enumerate (getslice l s (s + 10)) (s + 1).
Proof.
  rewrite bind_app, bind_singleton.
  destruct (0 <? s); cbn; by rewrite ?app_nil_r.
Qed.

Lemma numbered_row_terms (l : list A) (s : Z) :
  ((if 0 <? s then [Display.Blank] else [])
   ++ [Display.NumberedRow (enumerate (getslice l s (s + 10)) (s + 1))])
  ≫= (fun ln : Display.line A =>
        match ln with
        | Display.Blank => []
        | Display.NumberedRow terms_row => terms_row.*2
        | Display.TermsRow _ _ row_terms => row_terms
        end)
  = getslice l s (s + 10).
Proof.
  rewrite bind_app, bind_singleton, enumerate_snd.
  destruct (0 <? s); cbn; by rewrite ?app_nil_r.
Qed.

Lemma shown_cells_numbered (l : list A) :
  Display.shown_cells
    (range_step 0 (len l) 10 ≫= fun i =>
       (if 0 <? i then [Display.Blank] else [])
       ++ [Display.NumberedRow (enumerate (getslice l i (i + 10)) (i + 1))])
  = enumerate l 1.
Proof.
  unfold Display.shown_cells. rewrite bind_bind.
  apply (range_step_bind _
           (fun s => enumerate (drop (Z.to_nat s) l) (s + 1)) (len l))
    with (length l); try (unfold len; lia).
  - intros s Hs. rewrite drop_ge by (unfold len in *; lia).
    apply enumerate_nil.
  - intros s Hs. rewrite enumerate_drop_chunk by lia.
    by rewrite numbered_row_cells.
Qed.

Lemma shown_terms_numbered (l : list A) :
  Display.shown_terms
    (range_step 0 (len l) 10 ≫= fun i =>
       (if 0 <? i then [Display.Blank] else [])
       ++ [Display.NumberedRow (enumerate (getslice l i (i + 10)) (i + 1))])
  = l.
Proof.
  unfold Display.shown_terms. rewrite bind_bind.
  apply (range_step_bind _ (fun s => drop (Z.to_nat s) l) (len l))
    with (length l); try (unfold len; lia).
  - intros s Hs. apply drop_ge. unfold len in *. lia.
  - intros s Hs. rewrite (drop_chunk l s) at 1 by lia.
    by rewrite numbered_row_terms.
Qed.

(** X: the numbered list never meets an unbound [terms_row]; it writes one
    row per ten terms, row [i/10] holding the terms [sequence[i:i+10]]
    numbered from [i + 1], with a blank line before every row but the
    first. *)
Theorem numbered_rows_layout (sequence : list A) :
  Display.numbered_rows sequence
  = Some (range_step 0 (len sequence) 10 ≫= fun i =>
            (if 0 <? i then [Display.Blank] else [])
            ++ [Display.NumberedRow
                  (enumerate (getslice sequence i (i + 10)) (i + 1))]).
Proof. apply numbered_rows_written. Qed.

(** X: the numbered list shows every term of the sequence exactly once, in
    order, each with its position counted from 1. *)
Theorem numbered_rows_number_every_term (sequence : list A) :
  exists written,
    Display.numbered_rows sequence = Some written
    /\ Display.shown_cells written = enumerate sequence 1
    /\ Display.shown_terms written = sequence.
Proof.
  eexists. split; [apply numbered_rows_written|].
  split; [apply shown_cells_numbered|].
  apply shown_terms_numbered.
Qed.

(** X: the plain list shows every term of the sequence exactly once and in
    order, in [ceil(len / 10)] rows. *)
Theorem ranged_rows_show_every_term (sequence : list A) :
  Display.shown_terms (Display.ranged_rows sequence) = sequence
  /\ len (Display.ranged_rows sequence) = (len sequence + 9) / 10.
Proof.
  split.
  - unfold Display.ranged_rows. cbv zeta.
    rewrite (shown_terms_ranged_from sequence (length sequence) 0);
      [done|lia|unfold len; lia].
  - unfold Display.ranged_rows, range_step, len. cbv zeta.
    rewrite !length_fmap, length_seqZ.
    destruct (Z.ltb_spec 0 (Z.of_nat (length sequence))) as [Hpos|Hzero].
    + replace (Z.of_nat (length sequence) - 0 - 1)
        with (Z.of_nat (length sequence) + 9 + (-1) * 10) by lia.
      rewrite Z.div_add by lia.
      assert (0 <= (Z.of_nat (length sequence) + 9) / 10)
        by (apply Z.div_pos; lia).
      assert (1 <= (Z.of_nat (length sequence) + 9) / 10)
        by (apply Z.div_le_lower_bound; lia).
      lia.
    + replace (Z.of_nat (length sequence)) with 0 by lia. reflexivity.
Qed.

(** X: in the plain list the label "Terms lo-hi" of a row tells which
    terms it holds: the row starts a block of ten ([lo - 1] is a multiple
    of 10), holds between 1 and 10 terms, and they are the terms number
    [lo] to [hi] of the sequence. *)
Theorem ranged_rows_labels (sequence : list A) (lo hi : Z) (row_terms : list A) :
  Display.TermsRow lo hi row_terms ∈ Display.ranged_rows sequence ->
  1 <= lo /\ (lo - 1) mod 10 = 0
  /\ hi = lo + len row_terms - 1
  /\ 1 <= len row_terms <= 10
  /\ hi <= len sequence
  /\ row_terms = getslice sequence (lo - 1) hi.
Proof.
  intros Hrow. unfold Display.ranged_rows in Hrow. cbv zeta in Hrow.
  apply list_elem_of_fmap in Hrow as (i & Heq & Hi).
  injection Heq as -> -> ->.
  apply elem_of_range_step in Hi as [Hi Hmod]; [|lia].
  rewrite Z.sub_0_r in Hmod.
  replace (i + 1 - 1) with i by lia.
  rewrite len_getslice_chunk by lia.
  rewrite getslice_to_end by lia.
  repeat split; lia.
Qed.

Lemma view_all_terms_shows (sequence : list A) :
  exists written,
    Display.view_all_terms sequence = Some written
    /\ Display.shown_terms written = sequence.
Proof.
  unfold Display.view_all_terms.
  destruct (len sequence <=? 100).
  - rewrite numbered_rows_written. eexists. split; [done|].
    apply shown_terms_numbered.
  - eexists. split; [done|].
    unfold Display.ranged_rows. cbv zeta.
    rewrite (shown_terms_ranged_from sequence (length sequence) 0);
      [done|lia|unfold len; lia].
Qed.

(** X: whatever the length of the sequence, the expander runs to its end
    and shows every term exactly once and in order. *)
Theorem view_all_terms_complete (sequence : list A) :
  exists written,
    Display.view_all_terms sequence = Some written
    /\ Display.shown_terms written = sequence.
Proof. apply view_all_terms_shows. Qed.

End Expander.

(** ** The page as a whole *)

Section Page.

Context {A : Type} `{Number A}.

Lemma terms_prefix (a d : A) (m n : Z) :
  0 <= m <= n ->
  getslice (term_at a d <$> range n) 0 m = term_at a d <$> range m.
Proof.
  intros Hm. replace m with (0 + m) at 1 by lia.
  rewrite getslice_chunk by lia.
  change (Z.to_nat 0) with 0%nat. rewrite drop_0.
  rewrite <- fmap_take. f_equal. unfold range.
  replace n with (m + (n - m)) by lia.
  rewrite seqZ_app by lia.
  apply take_app_length'. rewrite length_seqZ. lia.
Qed.

(** X: a shorter request with the same first term and difference yields a
    prefix of the longer one: [generate(a, d, n)[:m] == generate(a, d, m)]
    for [0 <= m <= n], in every number type. *)
Theorem generate_prefix (first_term common_difference : A) (m n : Z) :
  0 <= m <= n ->
  exists longer shorter,
    generate_arithmetic_sequence first_term common_difference n
    = Returned longer
    /\ generate_arithmetic_sequence first_term common_difference m
       = Returned shorter
    /\ getslice longer 0 m = shorter.
Proof.
  intros Hm. eexists. eexists.
  split; [apply generate_returns|].
  split; [apply generate_returns|].
  by apply terms_prefix.
Qed.

(** X: the line under "Generated Sequence" shows the whole sequence when
    it has at most 20 terms; otherwise it shows ten terms, and they are
    the sequence a request of 10 terms would give. *)
Theorem summary_of_generated
        (first_term common_difference : A) (num_terms : Z) :
  exists sequence preview,
    generate_arithmetic_sequence first_term common_difference num_terms
    = Returned sequence
    /\ generate_arithmetic_sequence first_term common_difference 10
       = Returned preview
    /\ len preview = 10
    /\ Display.sequence_summary sequence
       = if num_terms <=? 20 then Display.AllTerms sequence
         else Display.FirstTen preview.
Proof.
  eexists. eexists.
  split; [apply generate_returns|].
  split; [apply generate_returns|].
  split; [apply len_terms; lia|].
  unfold Display.sequence_summary.
  destruct (Z.leb_spec num_terms 20) as [Hshort|Hlong].
  - replace (len (term_at first_term common_difference <$> range num_terms) <=? 20)
      with true; [done|].
    symmetry. apply Z.leb_le. unfold len, range.
    rewrite length_fmap, length_seqZ. lia.
  - rewrite len_terms by lia.
    replace (num_terms <=? 20) with false by (symmetry; apply Z.leb_gt; lia).
    cbv zeta. f_equal. apply terms_prefix. lia.
Qed.

(** X: on any non-empty list the statistics block runs to its end: the
    first metric is the head of the list, the last metric its final item,
    and the closed form is [len / 2 * (head + final)].  (Where [2] is not
    zero, as in binary64 and in the rationals.) *)
Theorem statistics_nonempty (sequence : list A) :
  is_zero (of_int 2) = false ->
  sequence <> [] ->
  exists x y,
    head sequence = Some x /\ list.last sequence = Some y
    /\ statistics sequence
       = Returned {| first := x; last := y;
                     sum_direct := sum sequence;
                     sum_formula := mul (div (of_int (len sequence)) (of_int 2))
                                        (add x y) |}.
Proof.
  intros H2 Hne.
  destruct (head sequence) as [x|] eqn:Hhead;
    [|by apply head_None in Hhead].
  destruct (list.last sequence) as [y|] eqn:Hlast;
    [|by apply last_None in Hlast].
  exists x, y. split; [done|]. split; [done|].
  rewrite head_lookup in Hhead. rewrite last_lookup in Hlast.
  assert (Hlen : 1 <= len sequence).
  { destruct sequence; [done|]. unfold len. cbn [length]. lia. }
  unfold statistics.
  assert (Hfinal : getitem sequence (-1) = Returned y).
  { apply (getitem_from_end sequence 1 y); [lia|].
    by replace (Z.to_nat (len sequence - 1)) with (pred (length sequence))
      by (unfold len; lia). }
  rewrite (getitem_in_range sequence 0 x) by (done || lia).
  rewrite Hfinal.
  unfold truediv. rewrite H2. reflexivity.
Qed.

Lemma elem_of_enumerate (l : list A) (start i : Z) (x : A) :
  (i, x) ∈ enumerate l start ->
  exists k : nat, i = start + Z.of_nat k /\ l !! k = Some x.
Proof.
  intros Hin. apply list_elem_of_lookup_1 in Hin as [k Hk].
  unfold enumerate, zip in Hk.
  apply lookup_zip_with_Some in Hk as (i' & x' & Heq & Hi & Hx).
  injection Heq as -> ->.
  apply lookup_seqZ in Hi as [-> _]. by exists k.
Qed.

(** X: the numbering of the expander agrees with the formula the page
    prints, a_n = a_1 + (n - 1) d: in the numbered list of a generated
    sequence the cell numbered [i] holds
    [first_term + (i - 1) * common_difference], and [i] runs from 1 to
    the number of terms. *)
Theorem numbered_cells_follow_formula
        (first_term common_difference : A) (num_terms : Z) :
  exists sequence written,
    generate_arithmetic_sequence first_term common_difference num_terms
    = Returned sequence
    /\ Display.numbered_rows sequence = Some written
    /\ forall i term,
         (i, term) ∈ Display.shown_cells written ->
         1 <= i <= num_terms
         /\ term = add first_term (mul (of_int (i - 1)) common_difference).
Proof.
  eexists. eexists.
  split; [apply generate_returns|].
  split; [apply numbered_rows_written|].
  intros i term Hin. rewrite shown_cells_numbered in Hin.
  apply elem_of_enumerate in Hin as (k & -> & Hk).
  rewrite list_lookup_fmap in Hk. unfold range in Hk.
  destruct (seqZ 0 num_terms !! k) as [j|] eqn:Hj; [|done].
  apply lookup_seqZ in Hj as [-> Hlt].
  injection Hk as <-. split; [lia|].
  unfold term_at. do 3 f_equal. lia.
Qed.

(** X: the page turns a request down with "must be a positive integer"
    exactly when [num_terms <= 0], and with the performance warning
    exactly when [num_terms > 1000]. *)
Theorem main_guards (first_term common_difference : A) (num_terms : Z) :
  (Display.main first_term common_difference num_terms = Display.NotPositive
   <-> num_terms <= 0)
  /\ (Display.main first_term common_difference num_terms = Display.TooManyTerms
      <-> 1000 < num_terms).
Proof.
  unfold Display.main. rewrite generate_returns.
  destruct (Z.leb_spec num_terms 0) as [Hle|Hgt];
    [split; split; (done || lia)|].
  destruct (Z.ltb_spec 1000 num_terms) as [Hbig|Hok];
    [split; split; (done || lia)|].
  destruct (Display.view_all_terms _); [|split; split; (done || lia)].
  destruct (statistics _); split; split; (done || lia).
Qed.

Lemma main_renders_full (a d : A) (n : Z) :
  is_zero (of_int 2) = false ->
  1 <= n <= 1000 ->
  exists written row,
    Display.view_all_terms (term_at a d <$> range n) = Some written
    /\ Display.shown_terms written = term_at a d <$> range n
    /\ statistics (term_at a d <$> range n) = Returned row
    /\ Display.main a d n
       = Display.Rendered
           (term_at a d <$> range n)
           {| Display.sequence_line :=
                Display.sequence_summary (term_at a d <$> range n);
              Display.all_terms := written;
              Display.metrics := row |}.
Proof.
  intros H2 Hn.
  destruct (view_all_terms_shows (term_at a d <$> range n))
    as (written & Hview & Hshown).
  exists written. eexists.
  split; [done|]. split; [done|].
  split; [apply statistics_terms; lia || done|].
  unfold Display.main.
  replace (n <=? 0) with false by (symmetry; apply Z.leb_gt; lia).
  replace (1000 <? n) with false by (symmetry; apply Z.ltb_ge; lia).
  rewrite generate_returns, Hview.
  by rewrite statistics_terms by (lia || done).
Qed.

(** X: the [except] clause of the page is never reached: whatever the
    three inputs, nothing in the [try] block raises.  (Where [2] is not
    zero, as in binary64 and in the rationals.) *)
Theorem main_never_fails
        (first_term common_difference : A) (num_terms : Z)
        (f : Display.failure) :
  is_zero (of_int 2) = false ->
  Display.main first_term common_difference num_terms
  <> Display.ErrorOccurred f.
Proof.
  intros H2.
  destruct (decide (1 <= num_terms <= 1000)) as [Hn|Hn].
  - destruct (main_renders_full first_term common_difference num_terms H2 Hn)
      as (written & row & _ & _ & _ & ->).
    done.
  - unfold Display.main.
    destruct (Z.leb_spec num_terms 0); [done|].
    destruct (Z.ltb_spec 1000 num_terms); [done|lia].
Qed.

(** X: a request with [1 <= num_terms <= 1000] is rendered in full: the
    sequence has [num_terms] terms, the expander shows each of them once
    and in order, and the metrics are those of the statistics block, the
    ones [main] reduced to its metrics shows. *)
Theorem main_renders_everything
        (first_term common_difference : A) (num_terms : Z) :
  is_zero (of_int 2) = false ->
  1 <= num_terms <= 1000 ->
  exists sequence shown,
    Display.main first_term common_difference num_terms
    = Display.Rendered sequence shown
    /\ generate_arithmetic_sequence first_term common_difference num_terms
       = Returned sequence
    /\ len sequence = num_terms
    /\ Display.shown_terms (Display.all_terms shown) = sequence
    /\ statistics sequence = Returned (Display.metrics shown)
    /\ main first_term common_difference num_terms
       = Rendered sequence (Display.metrics shown).
Proof.
  intros H2 Hn.
  destruct (main_renders_full first_term common_difference num_terms H2 Hn)
    as (written & row & Hview & Hshown & Hrow & Hmain).
  eexists. eexists. split; [exact Hmain|].
  split; [apply generate_returns|].
  split; [apply len_terms; lia|].
  split; [exact Hshown|]. split; [exact Hrow|].
  destruct (main_renders first_term common_difference num_terms Hn H2)
    as (row' & Hrow' & ->).
  cbn [Display.metrics]. congruence.
Qed.

End Page.

(** ** Successive calls *)

Section Calls.

Context {A : Type} `{Number A}.

Local Abbreviation heap := (gmap positive (list A)).

(** X: two successive calls return two distinct list objects; after the
    second call the first list still holds the items of the first call,
    and the objects that existed before the calls are unchanged. *)
Theorem successive_calls_share_nothing
        (a1 d1 a2 d2 : A) (n1 n2 : Z) (h : heap) :
  exists s1 s2,
    generate_arithmetic_sequence a1 d1 n1 = Returned s1
    /\ generate_arithmetic_sequence a2 d2 n2 = Returned s2
    /\ (let '(l1, h1) := Obj.generate_arithmetic_sequence a1 d1 n1 h in
        let '(l2, h2) := Obj.generate_arithmetic_sequence a2 d2 n2 h1 in
        l1 <> l2
        /\ h2 !! l1 = Some s1
        /\ h2 !! l2 = Some s2
        /\ (forall l, is_Some (h !! l) -> h2 !! l = h !! l)).
Proof.
  eexists. eexists.
  split; [apply generate_returns|]. split; [apply generate_returns|].
  rewrite !generate_on_heap.
  set (l1 := fresh (dom h)).
  set (h1 := <[l1 := term_at a1 d1 <$> range n1]> h).
  set (l2 := fresh (dom h1)).
  assert (Hl1 : h !! l1 = None) by apply not_elem_of_dom, is_fresh.
  assert (Hl2 : h1 !! l2 = None) by apply not_elem_of_dom, is_fresh.
  assert (Hne : l1 <> l2).
  { intros Heq. rewrite <- Heq in Hl2. unfold h1 in Hl2.
    by rewrite lookup_insert_eq in Hl2. }
  split; [done|].
  split; [rewrite lookup_insert_ne by done; apply lookup_insert_eq|].
  split; [apply lookup_insert_eq|].
  intros l [items Hl].
  assert (l <> l1) by congruence.
  assert (l <> l2).
  { intros ->. unfold h1 in Hl2. rewrite lookup_insert_ne in Hl2 by done.
    congruence. }
  unfold h1. by rewrite !lookup_insert_ne.
Qed.

End Calls.

(** ** Closed forms in exact arithmetic *)

Section ExactMetrics.

Local Open Scope Q_scope.

(** X: in exact arithmetic the metrics of a generated sequence have closed
    forms: the first is [first_term], the last is
    [first_term + (num_terms - 1) * common_difference], and the sum of the
    terms is [num_terms * first_term
    + common_difference * num_terms * (num_terms - 1) / 2]. *)
Theorem exact_metrics (first_term common_difference : Q) (num_terms : Z) :
  (1 <= num_terms)%Z ->
  exists sequence row,
    generate_arithmetic_sequence first_term common_difference num_terms
    = Returned sequence
    /\ statistics sequence = Returned row
    /\ first row == first_term
    /\ last row
       == first_term + (inject_Z num_terms - 1) * common_difference
    /\ sum_direct row
       == inject_Z num_terms * first_term
          + common_difference
            * (inject_Z num_terms * (inject_Z num_terms - 1) / 2).
Proof.
  intros Hn. eexists. eexists.
  split; [apply generate_returns|].
  split; [by apply statistics_terms|].
  cbn [first last sum_direct].
  unfold term_at. cbn [add mul of_int Q_Number].
  split; [change (inject_Z 0) with 0; ring|].
  split.
  - unfold Z.sub. rewrite inject_Z_plus.
    change (inject_Z (- (1))%Z) with (- (1)). ring.
  - replace num_terms with (Z.of_nat (Z.to_nat num_terms)) at 1 by lia.
    rewrite (sum_terms_exact first_term common_difference (Z.to_nat num_terms)).
    by rewrite Z2Nat.id by lia.
Qed.

End ExactMetrics.

(** ** Instances of the properties above *)

Section Instances.

Local Open Scope float_scope.

Lemma ranged_rows_labels_witness :
  Display.TermsRow 101 103 [101; 102; 103]%Z
    ∈ Display.ranged_rows (seqZ 1 103)
  /\ (1 <= 101 /\ (101 - 1) mod 10 = 0
      /\ 103 = 101 + len [101; 102; 103]%Z - 1
      /\ 1 <= len [101; 102; 103]%Z <= 10
      /\ 103 <= len (seqZ 1 103)
      /\ [101; 102; 103]%Z = getslice (seqZ 1 103) (101 - 1) 103)%Z.
Proof.
  assert (Hrow : Display.TermsRow 101 103 [101; 102; 103]%Z
                   ∈ Display.ranged_rows (seqZ 1 103))
    by (apply list_elem_of_lookup_2 with 10%nat; vm_compute; reflexivity).
  exact (conj Hrow (ranged_rows_labels (seqZ 1 103) 101 103 [101; 102; 103]%Z Hrow)).
Defined.

Lemma generate_prefix_witness :
  (0 <= 2 <= 4)%Z
  /\ exists longer shorter,
       generate_arithmetic_sequence 0.3 (-0.2) 4%Z = Returned longer
       /\ generate_arithmetic_sequence 0.3 (-0.2) 2%Z = Returned shorter
       /\ getslice longer 0 2 = shorter.
Proof.
  split; [lia | apply (generate_prefix 0.3 (-0.2) 2%Z 4%Z); lia].
Defined.

Lemma statistics_nonempty_witness :
  @is_zero float _ (of_int 2) = false
  /\ [0.5; 2] <> []
  /\ exists x y,
       head [0.5; 2] = Some x /\ list.last [0.5; 2] = Some y
       /\ statistics [0.5; 2]
          = Returned {| first := x; last := y;
                        sum_direct := sum [0.5; 2];
                        sum_formula := mul (div (of_int (len [0.5; 2])) (of_int 2))
                                           (add x y) |}.
Proof.
  split; [reflexivity|]. split; [discriminate|].
  apply (statistics_nonempty [0.5; 2]); [reflexivity | discriminate].
Defined.

Lemma main_never_fails_witness :
  @is_zero float _ (of_int 2) = false
  /\ Display.main 0.5 0.25 150%Z
     <> Display.ErrorOccurred (Display.Exception IndexError).
Proof.
  split; [reflexivity|].
  apply (main_never_fails 0.5 0.25 150%Z (Display.Exception IndexError)).
  reflexivity.
Defined.

Lemma main_renders_everything_witness :
  @is_zero float _ (of_int 2) = false
  /\ (1 <= 150 <= 1000)%Z
  /\ exists sequence shown,
       Display.main 0.5 0.25 150%Z = Display.Rendered sequence shown
       /\ generate_arithmetic_sequence 0.5 0.25 150%Z = Returned sequence
       /\ len sequence = 150%Z
       /\ Display.shown_terms (Display.all_terms shown) = sequence
       /\ statistics sequence = Returned (Display.metrics shown)
       /\ main 0.5 0.25 150%Z = Rendered sequence (Display.metrics shown).
Proof.
  split; [reflexivity|]. split; [lia|].
  apply (main_renders_everything 0.5 0.25 150%Z); [reflexivity | lia].
Defined.

Lemma exact_metrics_witness :
  (1 <= 4)%Z
  /\ exists sequence row,
       generate_arithmetic_sequence (3 # 10)%Q (- (2 # 10))%Q 4%Z
       = Returned sequence
       /\ statistics sequence = Returned row
       /\ (first row == 3 # 10)%Q
       /\ (last row == (3 # 10) + (inject_Z 4 - 1) * - (2 # 10))%Q
       /\ (sum_direct row
           == inject_Z 4 * (3 # 10)
              + - (2 # 10) * (inject_Z 4 * (inject_Z 4 - 1) / 2))%Q.
Proof.
  split; [lia|].
  apply (exact_metrics (3 # 10)%Q (- (2 # 10))%Q 4%Z); lia.
Defined.

End Instances.
